(** * hello-cli: the greeting engine, the language decoder and the command handler

    A shallow embedding of [src/logic.ts], [src/constants.ts], [src/effects.ts]
    and [src/index.ts].

    - JavaScript strings are sequences of UTF-16 code units ([jsstring]); the
      literals of the source are written as they are in the source and turned
      into code units by [utf16].
    - A [Date] is its time value (or Invalid Date), [getHours] is the local
      hour of ECMAScript, for an arbitrary local time zone adjustment.
    - A computation completes normally, throws, or terminates the process
      ([Completion]); the handler additionally records what it shows on the
      terminal ([Prog]). *)

From Stdlib Require Import ZArith NArith List Bool String Ascii Lia.
Import ListNotations.

Local Open Scope Z_scope.

(* ===================================================================== *)
(** ** JavaScript strings *)
(* ===================================================================== *)

(** A UTF-16 code unit and a string of them. [length] of a JavaScript string
    is the length of this list. *)
Definition code_unit := N.
Definition jsstring := list code_unit.

Module Utf16.

Local Open Scope N_scope.

(** The bytes of a literal of this file (UTF-8, as in the source files). *)
Fixpoint bytes (s : string) : list N :=
  match s with
  | EmptyString => []
  | String a s' => N_of_ascii a :: bytes s'
  end.

Definition cont (b : N) : N := N.land b 63.

(** UTF-8 decoding to code points; a malformed sequence gives U+FFFD. *)
Fixpoint code_points (bs : list N) : list N :=
  match bs with
  | [] => []
  | b0 :: r0 =>
      if b0 <? 128 then b0 :: code_points r0
      else if b0 <? 192 then 65533 :: code_points r0
      else if b0 <? 224 then
        match r0 with
        | b1 :: r1 =>
            (N.shiftl (N.land b0 31) 6 + cont b1) :: code_points r1
        | [] => [65533]
        end
      else if b0 <? 240 then
        match r0 with
        | b1 :: b2 :: r2 =>
            (N.shiftl (N.land b0 15) 12 + N.shiftl (cont b1) 6 + cont b2)
              :: code_points r2
        | _ => [65533]
        end
      else
        match r0 with
        | b1 :: b2 :: b3 :: r3 =>
            (N.shiftl (N.land b0 7) 18 + N.shiftl (cont b1) 12
             + N.shiftl (cont b2) 6 + cont b3) :: code_points r3
        | _ => [65533]
        end
  end.

(** UTF-16 encoding of one code point: itself, or a surrogate pair. *)
Definition units (cp : N) : list N :=
  if cp <? 65536 then [cp]
  else [55296 + N.shiftr (cp - 65536) 10; 56320 + N.land (cp - 65536) 1023].

Definition encode (cps : list N) : list N := flat_map units cps.

End Utf16.

(** The JavaScript string denoted by a literal. *)
Definition utf16 (s : string) : jsstring :=
  Utf16.encode (Utf16.code_points (Utf16.bytes s)).

Fixpoint jsstring_eqb (s t : jsstring) : bool :=
  match s, t with
  | [], [] => true
  | c :: s', d :: t' => N.eqb c d && jsstring_eqb s' t'
  | _, _ => false
  end.

(** [s.startsWith(t)] *)
Fixpoint startsWith (s t : jsstring) {struct t} : bool :=
  match t with
  | [] => true
  | d :: t' =>
      match s with
      | [] => false
      | c :: s' => N.eqb c d && startsWith s' t'
      end
  end.

(** [s.includes(t)]: [t] occurs in [s] as a contiguous run of code units. *)
Fixpoint includes (s t : jsstring) : bool :=
  startsWith s t ||
  match s with
  | [] => false
  | _ :: s' => includes s' t
  end.

(** [xs.join(sep)] *)
Fixpoint join (sep : jsstring) (xs : list jsstring) : jsstring :=
  match xs with
  | [] => []
  | [x] => x
  | x :: rest => x ++ sep ++ join sep rest
  end.

(** [!s] for a string: only the empty string is falsy. *)
Definition falsy (s : jsstring) : bool :=
  match s with [] => true | _ :: _ => false end.

(* ===================================================================== *)
(** ** Results, errors and completions *)
(* ===================================================================== *)

(** [new Error(message)] *)
Record Error : Type := mkError { message : jsstring }.

(** What a [throw] (or a rejected promise) carries: an [Error] object, or
    ts-pattern's [NonExhaustiveError]. *)
Inductive Exception : Type :=
| Thrown (e : Error)
| NonExhaustiveError.

(** neverthrow's [Result<T, E>]: [ok(value)] or [err(error)]. *)
Inductive Result (T E : Type) : Type :=
| ok (value : T)
| err (error : E).
Arguments ok {T E} value.
Arguments err {T E} error.

Definition isOk {T E} (r : Result T E) : bool :=
  match r with ok _ => true | err _ => false end.

Definition isErr {T E} (r : Result T E) : bool := negb (isOk r).

(** How a call ends: it returns (an [async] function: its promise is
    fulfilled), it throws (its promise is rejected), or it has called
    [process.exit(code)]. *)
Inductive Completion (A : Type) : Type :=
| Normal (a : A)
| Throw (x : Exception)
| Exit (code : Z).
Arguments Normal {A} a.
Arguments Throw {A} x.
Arguments Exit {A} code.

Definition returns {A} (c : Completion A) : Prop := exists a, c = Normal a.
Definition throws {A} (c : Completion A) : Prop := exists x, c = Throw x.
Definition exits {A} (c : Completion A) : Prop := exists code, c = Exit code.

(* ===================================================================== *)
(** ** ts-pattern: [match(value).with(...)/.when(...)] chains *)
(* ===================================================================== *)

Module TsPattern.
Section Chain.
Variables I O : Type.

(** One [.when(predicate, handler)] clause; [.with(pattern, handler)] is
    the clause whose predicate is "the value matches the pattern". *)
Definition clause : Type := ((I -> bool) * (I -> O))%type.

(** The first clause whose predicate holds decides. *)
Fixpoint run (cs : list clause) (v : I) : option O :=
  match cs with
  | [] => None
  | (p, h) :: cs' => if p v then Some (h v) else run cs' v
  end.

(** [.otherwise(handler)] *)
Definition otherwise (cs : list clause) (h : I -> O) (v : I) : O :=
  match run cs v with
  | Some o => o
  | None => h v
  end.

(** [.exhaustive()]: throws when no clause matched. *)
Definition exhaustive (cs : list clause) (v : I) : Completion O :=
  match run cs v with
  | Some o => Normal o
  | None => Throw NonExhaustiveError
  end.
End Chain.
Arguments run {I O} cs v.
Arguments otherwise {I O} cs h v.
Arguments exhaustive {I O} cs v.
End TsPattern.

(* ===================================================================== *)
(** ** constants.ts *)
(* ===================================================================== *)

(** The keys of the [LANGUAGE] object; the type [Language] is the type of
    its values. *)
Inductive Language : Type := EN | JA | ES.

(** [LANGUAGE.EN], [LANGUAGE.JA], [LANGUAGE.ES] *)
Definition LANGUAGE (k : Language) : jsstring :=
  match k with
  | EN => utf16 "en"
  | JA => utf16 "ja"
  | ES => utf16 "es"
  end.

(** [Object.values(LANGUAGE)], in the order of the declaration. *)
Definition LANGUAGE_values : list jsstring := map LANGUAGE [EN; JA; ES].

Definition APP_NAME : jsstring := utf16 "hello-cli".

Definition Language_eqb (a b : Language) : bool :=
  jsstring_eqb (LANGUAGE a) (LANGUAGE b).

(* ===================================================================== *)
(** ** Dates *)
(* ===================================================================== *)

(** A [Date] object: its time value in milliseconds since the epoch, or
    Invalid Date (time value NaN). *)
Inductive Date : Type :=
| InvalidDate
| DateOf (tv : Z).

(** The numbers [getHours] can return. *)
Inductive number : Type :=
| NaN
| Num (z : Z).

(** [a < b] for a number and an integer literal: false on NaN. *)
Definition lt (a : number) (b : Z) : bool :=
  match a with
  | NaN => false
  | Num z => z <? b
  end.

Definition msPerHour : Z := 3600000.
Definition HoursPerDay : Z := 24.

(** ECMAScript's HourFromTime. *)
Definition HourFromTime (t : Z) : Z := (t / msPerHour) mod HoursPerDay.

(* ===================================================================== *)
(** ** zod *)
(* ===================================================================== *)

(** The issue [z.string().min(1, msg)] raises on a shorter string. *)
Record ZodIssue : Type := mkIssue {
  issue_code : jsstring;
  issue_minimum : Z;
  issue_message : jsstring
}.

(** [z.nativeEnum(LANGUAGE).safeParse(str)]: succeeds when [str] is one of
    the values of the object (compared with [===], by [indexOf]), and the
    data is then that value. *)
Definition LanguageSchema_safeParse (str : jsstring) : option Language :=
  find (fun k => jsstring_eqb (LANGUAGE k) str) [EN; JA; ES].

(** [z.string().min(1, 'Name cannot be empty').safeParse(name)]: the data, or
    the issues of the ZodError. *)
Definition NameSchema_safeParse (name : jsstring)
  : Result jsstring (list ZodIssue) :=
  if (Z.of_nat (List.length name) <? 1)
  then err [mkIssue (utf16 "too_small") 1 (utf16 "Name cannot be empty")]
  else ok name.

Section Program.

(** The local time zone adjustment of the host at a time value, in
    milliseconds: ECMAScript's LocalTime(t) is [t + LocalTZA t]. *)
Variable LocalTZA : Z -> Z.

(** The [message] getter of a ZodError (zod's rendering of its issues). *)
Variable ZodError_message : list ZodIssue -> jsstring.

(* =================================================================== *)
(** ** logic.ts *)
(* =================================================================== *)

(** date-fns [getHours(date)]: [Date.prototype.getHours], the hour of the
    local time, and NaN for Invalid Date. *)
Definition getHours (date : Date) : number :=
  match date with
  | InvalidDate => NaN
  | DateOf tv => Num (HourFromTime (tv + LocalTZA tv))
  end.

Inductive TimeOfDay : Type := morning | day | evening.

Definition TimeOfDay_eqb (a b : TimeOfDay) : bool :=
  match a, b with
  | morning, morning | day, day | evening, evening => true
  | _, _ => false
  end.

Definition getTimeOfDay (date : Date) : TimeOfDay :=
  let hour := getHours date in
  TsPattern.otherwise
    [ ((fun h => lt h 12), (fun _ => morning));
      ((fun h => lt h 18), (fun _ => day)) ]
    (fun _ => evening)
    hour.

(** The predicate of [.with([l, t], handler)] on a pair. *)
Definition with_pair (l : Language) (t : TimeOfDay)
  : Language * TimeOfDay -> bool :=
  fun v => Language_eqb (fst v) l && TimeOfDay_eqb (snd v) t.

Definition createGreeting (name : jsstring) (lang : Language) (date : Date)
  : Completion (Result jsstring Error) :=
  match NameSchema_safeParse name with
  | err issues => Normal (err (mkError (ZodError_message issues)))
  | ok _ =>
      let timeOfDay := getTimeOfDay date in
      match
        TsPattern.exhaustive
          [ (with_pair JA morning,
              fun _ => utf16 "おはようございます、" ++ name ++ utf16 "さん！");
            (with_pair JA day,
              fun _ => utf16 "こんにちは、" ++ name ++ utf16 "さん！");
            (with_pair JA evening,
              fun _ => utf16 "こんばんは、" ++ name ++ utf16 "さん！");
            (with_pair EN morning,
              fun _ => utf16 "Good morning, " ++ name ++ utf16 "!");
            (with_pair EN day,
              fun _ => utf16 "Hello, " ++ name ++ utf16 "!");
            (with_pair EN evening,
              fun _ => utf16 "Good evening, " ++ name ++ utf16 "!");
            (with_pair ES morning,
              fun _ => utf16 "¡Buenos días, " ++ name ++ utf16 "!");
            (with_pair ES day,
              fun _ => utf16 "¡Hola, " ++ name ++ utf16 "!");
            (with_pair ES evening,
              fun _ => utf16 "¡Buenas noches, " ++ name ++ utf16 "!") ]
          (lang, timeOfDay)
      with
      | Normal message => Normal (ok message)
      | Throw x => Throw x
      | Exit code => Exit code
      end
  end.

(** A closed form of the nine clauses of createGreeting, for the proofs:
    what stands before and after the name (see createGreeting_nonempty). *)
Definition template (lang : Language) (t : TimeOfDay) : jsstring * jsstring :=
  match lang, t with
  | JA, morning => (utf16 "おはようございます、", utf16 "さん！")
  | JA, day => (utf16 "こんにちは、", utf16 "さん！")
  | JA, evening => (utf16 "こんばんは、", utf16 "さん！")
  | EN, morning => (utf16 "Good morning, ", utf16 "!")
  | EN, day => (utf16 "Hello, ", utf16 "!")
  | EN, evening => (utf16 "Good evening, ", utf16 "!")
  | ES, morning => (utf16 "¡Buenos días, ", utf16 "!")
  | ES, day => (utf16 "¡Hola, ", utf16 "!")
  | ES, evening => (utf16 "¡Buenas noches, ", utf16 "!")
  end.

(* =================================================================== *)
(** ** The terminal and the process: what index.ts and effects.ts use *)
(* =================================================================== *)

(** The picocolors formatters the program calls. *)
Inductive Style : Type := bgCyan | black | red | gray | yellow | green | bold.

(** [pc.red(s)] and the like: presentational, left open. *)
Variable pc : Style -> jsstring -> jsstring.

(** The options of [text({...})]. *)
Record TextOptions : Type := mkTextOptions {
  text_message : jsstring;
  text_placeholder : jsstring;
  text_validate : jsstring -> option jsstring
}.

(** The options of [select({...})]. *)
Record SelectOptions : Type := mkSelectOptions {
  select_message : jsstring;
  select_options : list (Language * jsstring)
}.

(** What a prompt resolves to: a value, or the cancel symbol that
    [isCancel] recognises. *)
Inductive Prompted (A : Type) : Type :=
| Value (a : A)
| CancelSymbol.
Arguments Value {A} a.
Arguments CancelSymbol {A}.

(** How the promise of [execa] settles; [reason] is the rejection reason
    as [`${e}`] renders it. *)
Inductive Settled : Type :=
| Fulfilled
| Rejected (reason : jsstring).

(** The collaborators of one invocation. *)
Record World : Type := mkWorld {
  text : TextOptions -> Prompted jsstring;
  select : SelectOptions -> Prompted Language;
  now : Z;
  execa : jsstring -> list jsstring -> Settled
}.

(** What the program does to the terminal and to its collaborators. *)
Inductive Event : Type :=
| Intro (title : jsstring)
| TextPrompt (message : jsstring)
| SelectPrompt (message : jsstring)
| ConsoleError (line : jsstring)
| SpinnerStart (text : jsstring)
| SetTimeout (ms : Z)
| Execa (file : jsstring) (args : list jsstring)
| SpinnerSucceed (text : jsstring)
| SpinnerWarn (text : jsstring)
| Outro (message : jsstring).

(** A run: the events so far and how it completed. *)
Definition Prog (A : Type) : Type := (list Event * Completion A)%type.

Definition ret {A} (a : A) : Prog A := ([], Normal a).

Definition bind {A B} (m : Prog A) (k : A -> Prog B) : Prog B :=
  match m with
  | (tr, Normal a) => let (tr', c) := k a in (tr ++ tr', c)
  | (tr, Throw x) => (tr, Throw x)
  | (tr, Exit code) => (tr, Exit code)
  end.

Definition emit (e : Event) : Prog unit := ([e], Normal tt).
Definition lift {A} (c : Completion A) : Prog A := ([], c).
Definition process_exit {A} (code : Z) : Prog A := ([], Exit code).

Notation "x <- m ;; k" := (bind m (fun x => k))
  (at level 61, m at next level, right associativity).
Notation "m ;;; k" := (bind m (fun _ => k))
  (at level 61, right associativity).

(* =================================================================== *)
(** ** effects.ts *)
(* =================================================================== *)

(** [ResultAsync.fromPromise(execa('echo', [...]), e => new Error(...))
    .map(() => undefined)]: the rejection becomes an [err], so the
    ResultAsync itself never rejects. *)
Definition logToSystem (w : World) (message : jsstring)
  : Prog (Result unit Error) :=
  let file := utf16 "echo" in
  let args := [utf16 "[LOG]: " ++ message] in
  emit (Execa file args) ;;;
  match execa w file args with
  | Fulfilled => ret (ok tt)
  | Rejected e => ret (err (mkError (utf16 "Failed to log: " ++ e)))
  end.

(* =================================================================== *)
(** ** index.ts *)
(* =================================================================== *)

(** [LanguageType.from(str)] *)
Definition LanguageType_from (str : jsstring) : Completion Language :=
  match LanguageSchema_safeParse str with
  | None =>
      Throw (Thrown (mkError
        (utf16 "Invalid language: " ++ str ++ utf16 ". Allowed: "
         ++ join (utf16 ", ") LANGUAGE_values)))
  | Some data => Normal data
  end.

Definition askName_validate (value : jsstring) : option jsstring :=
  if (Z.of_nat (List.length value) =? 0)
  then Some (utf16 "Name is required!")
  else None.

Definition askName_options : TextOptions :=
  mkTextOptions (utf16 "What is your name?") (utf16 "Alice") askName_validate.

Definition askName (w : World) : Prog jsstring :=
  emit (TextPrompt (text_message askName_options)) ;;;
  match text w askName_options with
  | CancelSymbol => process_exit 0
  | Value name => ret name
  end.

Definition askLanguage_options : SelectOptions :=
  mkSelectOptions (utf16 "Choose a language:")
    [ (EN, utf16 "English"); (JA, utf16 "日本語"); (ES, utf16 "Español") ].

Definition askLanguage (w : World) : Prog Language :=
  emit (SelectPrompt (select_message askLanguage_options)) ;;;
  match select w askLanguage_options with
  | CancelSymbol => process_exit 0
  | Value lang => ret lang
  end.

(** The bound arguments cmd-ts hands to the handler. *)
Record Args : Type := mkArgs {
  nameArg : jsstring;
  langArg : option Language
}.

Definition handler (w : World) (args : Args) : Prog unit :=
  final <-
    match langArg args with
    | None =>
        emit (Intro (pc bgCyan (pc black
                (utf16 " " ++ APP_NAME ++ utf16 " ")))) ;;;
        finalName <-
          (if falsy (nameArg args) then askName w else ret (nameArg args)) ;;
        finalLang <- askLanguage w ;;
        ret (finalName, finalLang)
    | Some lang => ret (nameArg args, lang)
    end ;;
  let finalName := fst final in
  let finalLang := snd final in
  result <- lift (createGreeting finalName finalLang (DateOf (now w))) ;;
  match result with
  | err error =>
      emit (ConsoleError (pc red (utf16 "Error: " ++ message error))) ;;;
      process_exit 1
  | ok message =>
      emit (SpinnerStart (utf16 "Processing greeting...")) ;;;
      emit (SetTimeout 800) ;;;
      logResult <- logToSystem w message ;;
      (if isOk logResult
       then emit (SpinnerSucceed (pc gray (utf16 "System log updated.")))
       else emit (SpinnerWarn (pc yellow
              (utf16 "Failed to update system log, but continuing.")))) ;;;
      emit (Outro (pc green (pc bold message)))
  end.

(** The exit status of the process for a run of the handler under
    [run(app, process.argv.slice(2))]: the code given to [process.exit];
    0 when the handler returns, and the event loop drains; 1 when it
    throws (the promise of [run] is not awaited, the rejection is
    unhandled). *)
Definition exitCode (p : Prog unit) : Z :=
  match snd p with
  | Normal _ => 0
  | Exit code => code
  | Throw _ => 1
  end.

(** The same world, where the user cancels the name prompt. *)
Definition cancel_text (w : World) : World :=
  mkWorld (fun _ => CancelSymbol) (select w) (now w) (execa w).

(** The same world, where the user cancels the language prompt. *)
Definition cancel_select (w : World) : World :=
  mkWorld (text w) (fun _ => CancelSymbol) (now w) (execa w).

(** The inputs the language decoder accepts, as section 6 of the
    specification lists them. *)
Definition accepted_values : list jsstring :=
  [utf16 "en"; utf16 "ja"; utf16 "es"].

(** A concrete host for the examples: the zone is UTC, the terminal has no
    colours, a ZodError shows the message of its first issue. *)
Definition UTC : Z -> Z := fun _ => 0.

Definition plain : Style -> jsstring -> jsstring := fun _ s => s.

Definition first_issue (issues : list ZodIssue) : jsstring :=
  match issues with
  | [] => []
  | i :: _ => issue_message i
  end.

(** A user who answers Alice and picks Japanese, at the epoch, on a
    machine where [echo] cannot be spawned. *)
Definition failing_log_world : World :=
  mkWorld (fun _ => Value (utf16 "Alice")) (fun _ => Value JA) 0
          (fun _ _ => Rejected (utf16 "Error: spawn echo ENOENT")).


(** A machine where [echo] runs: the same user, the log is written. *)
Definition working_world : World :=
  mkWorld (fun _ => Value (utf16 "Alice")) (fun _ => Value JA) 0
          (fun _ _ => Fulfilled).

Definition msPerDay : Z := 86400000.

(** Two strings that differ at a position both have: neither is the
    beginning of the other. *)
Fixpoint clash (p q : jsstring) : bool :=
  match p, q with
  | c :: p', d :: q' => if N.eqb c d then clash p' q' else true
  | _, _ => false
  end.

(** The prompts of a run, in the order they were shown. *)
Definition prompts (tr : list Event) : list Event :=
  filter (fun e => match e with
                   | TextPrompt _ | SelectPrompt _ => true
                   | _ => false
                   end) tr.

(** What a run shows and does once the greeting is computed: the spinner,
    the delay, the call of the logging action and the greeting. *)
Definition completion_events (tr : list Event) : list Event :=
  filter (fun e => match e with
                   | SpinnerStart _ | SetTimeout _ | Execa _ _
                   | SpinnerSucceed _ | SpinnerWarn _ | Outro _ => true
                   | _ => false
                   end) tr.

(* =================================================================== *)
(** ** Strings: facts *)
(* =================================================================== *)

Lemma jsstring_eqb_eq (s t : jsstring) : jsstring_eqb s t = true <-> s = t.
Proof.
  revert t; induction s as [|c s IH]; intros [|d t]; simpl;
    try (split; [discriminate | discriminate]); [tauto|].
  rewrite andb_true_iff, N.eqb_eq, IH.
  split; [intros [-> ->]; reflexivity | intros H; inversion H; auto].
Qed.

Lemma startsWith_app (t post : jsstring) : startsWith (t ++ post) t = true.
Proof.
  induction t as [|c t IH]; simpl; [reflexivity|].
  now rewrite N.eqb_refl, IH.
Qed.

Lemma includes_app (pre t post : jsstring) :
  includes (pre ++ t ++ post) t = true.
Proof.
  induction pre as [|c pre IH]; simpl.
  - replace (includes (t ++ post) t)
      with (startsWith (t ++ post) t ||
            match t ++ post with [] => false | _ :: s' => includes s' t end)
      by (destruct (t ++ post); reflexivity).
    now rewrite startsWith_app.
  - rewrite IH. apply orb_true_r.
Qed.

(** What [includes] decides. *)
Lemma includes_spec (s t : jsstring) :
  includes s t = true <-> exists pre post, s = pre ++ t ++ post.
Proof.
  split.
  - assert (SW : forall s t, startsWith s t = true -> exists post, s = t ++ post).
    { clear. intros s t; revert s; induction t as [|d t IH]; intros s H.
      - exists s; reflexivity.
      - destruct s as [|c s]; simpl in H; [discriminate|].
        apply andb_true_iff in H as [Hc Hs]. apply N.eqb_eq in Hc as ->.
        destruct (IH _ Hs) as [post ->]. exists post; reflexivity. }
    induction s as [|c s IH]; intros H.
    + destruct t; simpl in H; [|discriminate].
      exists [], []; reflexivity.
    + simpl in H. apply orb_true_iff in H as [H|H].
      * destruct (SW _ _ H) as [post E]. exists [], post. exact E.
      * destruct (IH H) as (pre & post & ->).
        exists (c :: pre), post; reflexivity.
  - intros (pre & post & ->). apply includes_app.
Qed.

(* =================================================================== *)
(** ** The period of the day *)
(* =================================================================== *)

Lemma HourFromTime_range (t : Z) : 0 <= HourFromTime t <= 23.
Proof.
  unfold HourFromTime, HoursPerDay.
  pose proof (Z.mod_pos_bound (t / msPerHour) 24 ltac:(lia)). lia.
Qed.

(** A valid date has an hour, and it is an hour of the day. *)
Lemma getHours_range (tv : Z) :
  exists h, getHours (DateOf tv) = Num h /\ 0 <= h <= 23.
Proof.
  eexists; split; [reflexivity | apply HourFromTime_range].
Qed.

Lemma getTimeOfDay_Num (date : Date) (h : Z) :
  getHours date = Num h ->
  getTimeOfDay date =
    if h <? 12 then morning else if h <? 18 then day else evening.
Proof.
  intros E. unfold getTimeOfDay, TsPattern.otherwise; simpl. rewrite E; simpl.
  destruct (h <? 12); [reflexivity|]. destruct (h <? 18); reflexivity.
Qed.

(** An invalid date has no hour; every comparison with NaN is false. *)
Lemma getTimeOfDay_InvalidDate : getTimeOfDay InvalidDate = evening.
Proof. reflexivity. Qed.

(** C1: for every hour of the day h in [0,23], a timestamp whose hour is h is
    classified as morning when h < 12, as day when 12 <= h < 18, and as
    evening when h >= 18. *)
Theorem getTimeOfDay_by_hour (date : Date) (h : Z) :
  getHours date = Num h -> 0 <= h <= 23 ->
  (h < 12 -> getTimeOfDay date = morning) /\
  (12 <= h < 18 -> getTimeOfDay date = day) /\
  (18 <= h -> getTimeOfDay date = evening).
Proof.
  intros E _. rewrite (getTimeOfDay_Num date h E).
  repeat split; intros H.
  - destruct (Z.ltb_spec h 12); [reflexivity | lia].
  - destruct (Z.ltb_spec h 12); [lia|].
    destruct (Z.ltb_spec h 18); [reflexivity | lia].
  - destruct (Z.ltb_spec h 12); [lia|].
    destruct (Z.ltb_spec h 18); [lia | reflexivity].
Qed.

(* =================================================================== *)
(** ** createGreeting *)
(* =================================================================== *)

Lemma NameSchema_nonempty (name : jsstring) :
  name <> [] -> NameSchema_safeParse name = ok name.
Proof.
  intros H. unfold NameSchema_safeParse.
  destruct name as [|c name]; [contradiction|].
  destruct (Z.ltb_spec (Z.of_nat (List.length (c :: name))) 1) as [L|_];
    [simpl List.length in L; lia | reflexivity].
Qed.

Lemma NameSchema_empty :
  NameSchema_safeParse [] =
    err [mkIssue (utf16 "too_small") 1 (utf16 "Name cannot be empty")].
Proof. reflexivity. Qed.

(** The chain of createGreeting is exhaustive: for a validated name it
    returns the template of the pair, filled in. *)
Lemma createGreeting_nonempty (name : jsstring) (lang : Language) (date : Date) :
  name <> [] ->
  createGreeting name lang date =
    Normal (ok (fst (template lang (getTimeOfDay date)) ++ name
                ++ snd (template lang (getTimeOfDay date)))).
Proof.
  intros H. unfold createGreeting. rewrite (NameSchema_nonempty name H).
  destruct lang, (getTimeOfDay date); vm_compute; reflexivity.
Qed.

Lemma createGreeting_empty (lang : Language) (date : Date) :
  createGreeting [] lang date =
    Normal (err (mkError (ZodError_message
      [mkIssue (utf16 "too_small") 1 (utf16 "Name cannot be empty")]))).
Proof. reflexivity. Qed.

Lemma template_nonempty (lang : Language) (t : TimeOfDay) :
  fst (template lang t) <> [].
Proof. destruct lang, t; vm_compute; discriminate. Qed.

(** C2: for every non-empty name, every language and every timestamp,
    createGreeting returns a success whose message is a non-empty string
    that contains the name. *)
Theorem createGreeting_success (name : jsstring) (lang : Language) (date : Date) :
  name <> [] ->
  exists msg : jsstring,
    createGreeting name lang date = Normal (ok msg) /\
    msg <> [] /\
    includes msg name = true.
Proof.
  intros H. rewrite (createGreeting_nonempty name lang date H).
  eexists; split; [reflexivity|]. split.
  - intros E. apply app_eq_nil in E as [E _].
    exact (template_nonempty _ _ E).
  - apply includes_app.
Qed.

(** createGreeting always returns, a success or a failure. *)
Lemma createGreeting_total (name : jsstring) (lang : Language) (date : Date) :
  (exists msg, createGreeting name lang date = Normal (ok msg)) \/
  (exists e, createGreeting name lang date = Normal (err e)).
Proof.
  destruct name as [|c name].
  - right. eexists. apply createGreeting_empty.
  - left. eexists. apply createGreeting_nonempty. discriminate.
Qed.

(** C3: for every language and timestamp, createGreeting of the empty name
    returns a failure, the validation error; and for any inputs
    createGreeting returns a success or a failure: it never throws (and
    never terminates the process). *)
Theorem createGreeting_empty_fails_never_throws :
  (forall (lang : Language) (date : Date),
      createGreeting (utf16 "") lang date =
        Normal (err (mkError (ZodError_message
          [mkIssue (utf16 "too_small") 1 (utf16 "Name cannot be empty")])))) /\
  (forall (name : jsstring) (lang : Language) (date : Date),
      (exists msg, createGreeting name lang date = Normal (ok msg)) \/
      (exists e, createGreeting name lang date = Normal (err e))) /\
  (forall (name : jsstring) (lang : Language) (date : Date),
      ~ throws (createGreeting name lang date) /\
      ~ exits (createGreeting name lang date)).
Proof.
  pose proof createGreeting_total as R.
  split; [|split].
  - intros lang date. apply createGreeting_empty.
  - exact R.
  - intros name lang date.
    split; intros [x E]; destruct (R name lang date) as [[r E']|[r E']];
      rewrite E' in E; discriminate.
Qed.

(** C9: for every language and timestamp, createGreeting of the name that is a
    single space returns a success: the rule on the name is length >= 1. *)
Theorem createGreeting_single_space (lang : Language) (date : Date) :
  Z.of_nat (List.length (utf16 " ")) = 1 /\
  exists msg : jsstring,
    createGreeting (utf16 " ") lang date = Normal (ok msg).
Proof.
  split; [reflexivity|].
  eexists. apply createGreeting_nonempty. discriminate.
Qed.

(** C10: createGreeting depends on the timestamp only through the hour of
    the day: two timestamps with the same hour give the same result for
    every name and language. *)
Theorem createGreeting_hour_only
  (name : jsstring) (lang : Language) (t1 t2 : Date) :
  getHours t1 = getHours t2 ->
  createGreeting name lang t1 = createGreeting name lang t2.
Proof.
  intros E.
  assert (T : getTimeOfDay t1 = getTimeOfDay t2)
    by (unfold getTimeOfDay; now rewrite E).
  unfold createGreeting. now rewrite T.
Qed.

(* =================================================================== *)
(** ** More on the greeting engine *)
(* =================================================================== *)

(** The hour of a time is the hour of its millisecond of the day. *)
Lemma HourFromTime_ms (t : Z) : HourFromTime t = (t mod msPerDay) / msPerHour.
Proof.
  unfold HourFromTime, msPerDay, msPerHour, HoursPerDay.
  pose proof (Z.div_mod t 3600000 ltac:(lia)) as D.
  pose proof (Z.mod_pos_bound t 3600000 ltac:(lia)) as B.
  pose proof (Z.div_mod (t / 3600000) 24 ltac:(lia)) as D'.
  pose proof (Z.mod_pos_bound (t / 3600000) 24 ltac:(lia)) as B'.
  set (q := t / 3600000) in *. set (r := t mod 3600000) in *.
  set (q' := q / 24) in *. set (h := q mod 24) in *.
  assert (M : t mod 86400000 = 3600000 * h + r).
  { symmetry. apply (Z.mod_unique_pos t 86400000 q'); lia. }
  rewrite M. apply (Z.div_unique_pos _ 3600000 h r); lia.
Qed.

Lemma HourFromTime_lt (t b : Z) :
  HourFromTime t < b <-> t mod msPerDay < b * msPerHour.
Proof.
  rewrite HourFromTime_ms. unfold msPerHour.
  pose proof (Z.div_mod (t mod msPerDay) 3600000 ltac:(lia)) as D.
  pose proof (Z.mod_pos_bound (t mod msPerDay) 3600000 ltac:(lia)) as B.
  lia.
Qed.

(** X1: the period of a valid date is decided by the millisecond of the local
    day: morning before 12:00:00.000, day before 18:00:00.000, evening from
    then on. *)
Theorem getTimeOfDay_by_local_ms (tv : Z) :
  getTimeOfDay (DateOf tv) =
    if (tv + LocalTZA tv) mod msPerDay <? 43200000 then morning
    else if (tv + LocalTZA tv) mod msPerDay <? 64800000 then day
    else evening.
Proof.
  rewrite (getTimeOfDay_Num (DateOf tv) _ eq_refl).
  pose proof (HourFromTime_lt (tv + LocalTZA tv) 12) as H12.
  pose proof (HourFromTime_lt (tv + LocalTZA tv) 18) as H18.
  unfold msPerHour in H12, H18.
  destruct (Z.ltb_spec (HourFromTime (tv + LocalTZA tv)) 12);
    destruct (Z.ltb_spec ((tv + LocalTZA tv) mod msPerDay) 43200000);
    try lia; try reflexivity.
  destruct (Z.ltb_spec (HourFromTime (tv + LocalTZA tv)) 18);
    destruct (Z.ltb_spec ((tv + LocalTZA tv) mod msPerDay) 64800000);
    try lia; reflexivity.
Qed.

(** X2: where the zone adjustment is the same k days later, the greeting is
    the same: whole days do not change it. *)
Theorem createGreeting_days_later
  (name : jsstring) (lang : Language) (tv k : Z) :
  LocalTZA (tv + k * msPerDay) = LocalTZA tv ->
  getTimeOfDay (DateOf (tv + k * msPerDay)) = getTimeOfDay (DateOf tv) /\
  createGreeting name lang (DateOf (tv + k * msPerDay)) =
    createGreeting name lang (DateOf tv).
Proof.
  intros Z0.
  assert (H : getHours (DateOf (tv + k * msPerDay)) = getHours (DateOf tv)).
  { simpl. rewrite Z0, !HourFromTime_ms. do 2 f_equal.
    replace (tv + k * msPerDay + LocalTZA tv)
      with (tv + LocalTZA tv + k * msPerDay) by ring.
    apply Z.mod_add. discriminate. }
  assert (T : getTimeOfDay (DateOf (tv + k * msPerDay)) = getTimeOfDay (DateOf tv))
    by (unfold getTimeOfDay; now rewrite H).
  split; [exact T|]. unfold createGreeting. now rewrite T.
Qed.

(** X3: an Invalid Date is not refused: it is greeted as any evening date. *)
Theorem createGreeting_invalid_date_is_evening
  (name : jsstring) (lang : Language) (date : Date) (h : Z) :
  getHours date = Num h -> 18 <= h ->
  createGreeting name lang InvalidDate = createGreeting name lang date.
Proof.
  intros E H.
  assert (T : getTimeOfDay date = evening).
  { rewrite (getTimeOfDay_Num date h E).
    destruct (Z.ltb_spec h 12); [lia|]. destruct (Z.ltb_spec h 18); [lia|].
    reflexivity. }
  unfold createGreeting. now rewrite T, getTimeOfDay_InvalidDate.
Qed.

Lemma clash_app (p q x y : jsstring) :
  clash p q = true -> p ++ x <> q ++ y.
Proof.
  revert q; induction p as [|c p IH]; intros [|d q]; simpl; try discriminate.
  destruct (N.eqb_spec c d) as [->|N].
  - intros C E. injection E as E. exact (IH q C E).
  - intros _ E. injection E as E _. contradiction.
Qed.

Lemma template_inj (l1 l2 : Language) (p1 p2 : TimeOfDay) (n1 n2 : jsstring) :
  fst (template l1 p1) ++ n1 ++ snd (template l1 p1) =
  fst (template l2 p2) ++ n2 ++ snd (template l2 p2) ->
  n1 = n2 /\ l1 = l2 /\ p1 = p2.
Proof.
  intros H.
  destruct l1, p1, l2, p2;
    first [ exfalso; revert H; apply clash_app; vm_compute; reflexivity
          | apply app_inv_head in H; apply app_inv_tail in H;
            repeat split; assumption ].
Qed.

(** X4: a greeting tells its inputs apart: two successful calls with the same
    message had the same name, the same language and the same period of the
    day. *)
Theorem createGreeting_injective
  (n1 n2 : jsstring) (l1 l2 : Language) (d1 d2 : Date) (msg : jsstring) :
  createGreeting n1 l1 d1 = Normal (ok msg) ->
  createGreeting n2 l2 d2 = Normal (ok msg) ->
  n1 = n2 /\ l1 = l2 /\ getTimeOfDay d1 = getTimeOfDay d2.
Proof.
  intros H1 H2.
  destruct n1 as [|c1 n1]; [rewrite createGreeting_empty in H1; discriminate|].
  destruct n2 as [|c2 n2]; [rewrite createGreeting_empty in H2; discriminate|].
  rewrite createGreeting_nonempty in H1 by discriminate.
  rewrite createGreeting_nonempty in H2 by discriminate.
  apply (template_inj l1 l2). congruence.
Qed.

(** X5: the name prompt and the greeting engine agree on names: the validator
    of the prompt accepts a value exactly when createGreeting succeeds on
    it, and its complaint is for the empty value only. *)
Theorem askName_validate_agrees (value : jsstring) (lang : Language) (date : Date) :
  (askName_validate value = None <->
   exists msg, createGreeting value lang date = Normal (ok msg)) /\
  (askName_validate value = Some (utf16 "Name is required!") <-> value = []).
Proof.
  destruct value as [|c value].
  - split; split; try reflexivity.
    + discriminate.
    + intros [msg E]. rewrite createGreeting_empty in E. discriminate.
  - assert (V : askName_validate (c :: value) = None).
    { unfold askName_validate.
      destruct (Z.eqb_spec (Z.of_nat (List.length (c :: value))) 0) as [L|_];
        [simpl List.length in L; lia | reflexivity]. }
    rewrite V. split; split; try discriminate.
    + intros _. eexists. apply createGreeting_nonempty. discriminate.
    + reflexivity.
Qed.

(* =================================================================== *)
(** ** The language decoder *)
(* =================================================================== *)

Lemma LanguageSchema_safeParse_value (k : Language) :
  LanguageSchema_safeParse (LANGUAGE k) = Some k.
Proof. destruct k; vm_compute; reflexivity. Qed.

Lemma LanguageSchema_safeParse_Some (str : jsstring) (k : Language) :
  LanguageSchema_safeParse str = Some k -> LANGUAGE k = str.
Proof.
  unfold LanguageSchema_safeParse. intros H.
  apply find_some in H as [_ H]. now apply jsstring_eqb_eq.
Qed.

Lemma LanguageSchema_safeParse_None (str : jsstring) :
  LanguageSchema_safeParse str = None <-> ~ In str accepted_values.
Proof.
  split.
  - intros H I.
    assert (K : exists k, LANGUAGE k = str).
    { destruct I as [<-|[<-|[<-|[]]]];
        [exists EN | exists JA | exists ES]; reflexivity. }
    destruct K as [k <-].
    rewrite LanguageSchema_safeParse_value in H. discriminate.
  - intros H. destruct (LanguageSchema_safeParse str) as [k|] eqn:E;
      [|reflexivity].
    exfalso. apply H. apply LanguageSchema_safeParse_Some in E as <-.
    destruct k; simpl; auto.
Qed.

Lemma includes_app_r (s t v : jsstring) :
  includes t v = true -> includes (s ++ t) v = true.
Proof.
  rewrite !includes_spec. intros (pre & post & ->).
  exists (s ++ pre), post. now rewrite <- app_assoc.
Qed.

(** The message of the decoder for an input it rejects. *)
Lemma LanguageType_from_invalid (str : jsstring) :
  ~ In str accepted_values ->
  LanguageType_from str =
    Throw (Thrown (mkError
      (utf16 "Invalid language: " ++ str ++ utf16 ". Allowed: en, ja, es"))).
Proof.
  intros H. apply LanguageSchema_safeParse_None in H.
  unfold LanguageType_from. rewrite H. reflexivity.
Qed.

Lemma LanguageType_from_no_exit (str : jsstring) :
  ~ exits (LanguageType_from str).
Proof.
  intros [code E]. unfold LanguageType_from in E.
  destruct (LanguageSchema_safeParse str); discriminate.
Qed.

(** C5: the language decoder succeeds exactly on the inputs en, ja and es
    (compared as they are, so case matters), and on any other input it
    fails with a message that enumerates the allowed values en, ja, es. *)
Theorem LanguageType_from_accepts_exactly (str : jsstring) :
  (returns (LanguageType_from str) <-> In str accepted_values) /\
  (forall k : Language, LanguageType_from (LANGUAGE k) = Normal k) /\
  (~ In str accepted_values ->
   exists msg : jsstring,
     LanguageType_from str = Throw (Thrown (mkError msg)) /\
     includes msg (utf16 "en, ja, es") = true /\
     forall v, In v accepted_values -> includes msg v = true).
Proof.
  split; [|split].
  - split.
    + intros [k E]. unfold LanguageType_from in E.
      destruct (LanguageSchema_safeParse str) as [k'|] eqn:P; [|discriminate].
      apply LanguageSchema_safeParse_Some in P as <-.
      destruct k'; simpl; auto.
    + intros I. destruct (LanguageSchema_safeParse str) as [k|] eqn:P.
      * exists k. unfold LanguageType_from. now rewrite P.
      * apply LanguageSchema_safeParse_None in P. contradiction.
  - intros k. unfold LanguageType_from.
    now rewrite LanguageSchema_safeParse_value.
  - intros H. eexists. split; [apply (LanguageType_from_invalid str H)|].
    split.
    + rewrite app_assoc. apply includes_app_r. vm_compute. reflexivity.
    + intros v I. rewrite app_assoc. apply includes_app_r.
      destruct I as [<-|[<-|[<-|[]]]]; vm_compute; reflexivity.
Qed.

(** C6, as amended: on an input that is not one of en, ja, es the language
    decoder throws an Error carrying the message for the user (its promise
    is rejected: the failure is an exception, not a returned value); and on
    no input at all does the decoder terminate the process. *)
Theorem LanguageType_from_throws_on_invalid (str : jsstring) :
  ~ In str accepted_values ->
  LanguageType_from str =
    Throw (Thrown (mkError
      (utf16 "Invalid language: " ++ str ++ utf16 ". Allowed: en, ja, es"))) /\
  ~ returns (LanguageType_from str) /\
  (forall s : jsstring, ~ exits (LanguageType_from s)).
Proof.
  intros H. split; [exact (LanguageType_from_invalid str H)|]. split.
  - rewrite (LanguageType_from_invalid str H). intros [k E]. discriminate.
  - exact LanguageType_from_no_exit.
Qed.

(* =================================================================== *)
(** ** The handler *)
(* =================================================================== *)

Arguments utf16 : simpl never.
Arguments createGreeting : simpl never.

(** Case analysis of a run of the handler along its branches. *)
Ltac handler_cases w args :=
  unfold handler, askName, askLanguage, logToSystem;
  destruct (langArg args); simpl;
  try (destruct (falsy (nameArg args)); simpl);
  try (destruct (text w askName_options); simpl);
  try (destruct (select w askLanguage_options); simpl);
  repeat match goal with
    | |- context [createGreeting ?n ?l ?d] =>
        let E := fresh "E" in
        destruct (createGreeting_total n l d) as [[? E]|[? E]];
        rewrite !E; simpl
    | |- context [execa ?w ?f ?a] =>
        let X := fresh "X" in destruct (execa w f a) eqn:X; simpl
    end.

(** A run of the handler returns or terminates the process with 0 or 1;
    it never throws. *)
Lemma handler_completion (w : World) (args : Args) :
  snd (handler w args) = Normal tt \/
  snd (handler w args) = Exit 0 \/
  snd (handler w args) = Exit 1.
Proof. handler_cases w args; auto. Qed.

(** C4, on the code: a cancellation at the name prompt and at the language
    prompt both end the process with exit code 0, a validation failure of
    the name ends it with exit code 1, and no run of the handler ends with
    exit code 2. *)
Theorem handler_exit_codes_observed (w : World) :
  handler (cancel_text w) (mkArgs (utf16 "") None) =
    ([Intro (pc bgCyan (pc black (utf16 " " ++ APP_NAME ++ utf16 " ")));
      TextPrompt (utf16 "What is your name?")], Exit 0) /\
  handler (cancel_select w) (mkArgs (utf16 "Alice") None) =
    ([Intro (pc bgCyan (pc black (utf16 " " ++ APP_NAME ++ utf16 " ")));
      SelectPrompt (utf16 "Choose a language:")], Exit 0) /\
  handler w (mkArgs (utf16 "") (Some EN)) =
    ([ConsoleError (pc red (utf16 "Error: " ++ ZodError_message
        [mkIssue (utf16 "too_small") 1 (utf16 "Name cannot be empty")]))],
     Exit 1) /\
  (forall (w' : World) (args : Args),
      exitCode (handler w' args) = 0 \/ exitCode (handler w' args) = 1).
Proof.
  repeat split.
  intros w' args. unfold exitCode.
  destruct (handler_completion w' args) as [E|[E|E]]; rewrite E; auto.
Qed.

(** C7, on the code: both prompt helpers terminate the process themselves
    when the user cancels, and the handler terminates it itself when the
    greeting fails. *)
Theorem helpers_terminate_the_process (w : World) :
  snd (askName (cancel_text w)) = Exit 0 /\
  snd (askLanguage (cancel_select w)) = Exit 0 /\
  snd (handler w (mkArgs (utf16 "") (Some JA))) = Exit 1.
Proof. repeat split. Qed.


(* =================================================================== *)
(** ** More on the decoder, the logging action and the handler *)
(* =================================================================== *)

(** X6: decoding and the values of LANGUAGE are inverse to each other: the
    decoder returns a language exactly on the string that is its value. *)
Theorem LanguageType_from_round_trip (str : jsstring) (k : Language) :
  LanguageType_from str = Normal k <-> LANGUAGE k = str.
Proof.
  unfold LanguageType_from. split.
  - destruct (LanguageSchema_safeParse str) as [k'|] eqn:P; [|discriminate].
    intros E. injection E as <-. now apply LanguageSchema_safeParse_Some.
  - intros <-. now rewrite LanguageSchema_safeParse_value.
Qed.

(** X7: the language prompt offers what the decoder accepts: the values of
    its options are the values of LANGUAGE, in that order, and a string is
    decoded exactly when it is the value of an option. *)
Theorem askLanguage_offers_decodable (str : jsstring) :
  map (fun o => LANGUAGE (fst o)) (select_options askLanguage_options) =
    LANGUAGE_values /\
  (returns (LanguageType_from str) <->
   exists o, In o (select_options askLanguage_options) /\
             LANGUAGE (fst o) = str).
Proof.
  split; [reflexivity|]. split.
  - intros [k E]. apply LanguageType_from_round_trip in E.
    exists (k, match k with
               | EN => utf16 "English"
               | JA => utf16 "日本語"
               | ES => utf16 "Español"
               end).
    split; [|exact E]. destruct k; simpl; auto.
  - intros [[k label] [_ E]]. exists k.
    now apply LanguageType_from_round_trip.
Qed.

(** A run of the handler, branch by branch, with the name and the answers
    in view. *)
Ltac handler_run w args :=
  let name := fresh "name" in
  let lang := fresh "lang" in
  destruct args as [name lang];
  unfold handler, askName, askLanguage, logToSystem; simpl;
  destruct lang as [lang|]; destruct name as [|? name]; simpl;
  try (destruct (text w askName_options) as [[|? ?]|] eqn:T; simpl);
  try (destruct (select w askLanguage_options) as [?|] eqn:S; simpl);
  try rewrite !createGreeting_empty;
  try (rewrite !createGreeting_nonempty by discriminate);
  simpl;
  try (match goal with
       | |- context [execa w ?f ?a] => destruct (execa w f a) eqn:X; simpl
       end).

(** X9: a run ends with exit code 1 exactly when the name it arrives at is
    empty: an empty name argument with a language given, or an empty answer
    of the name prompt followed by a choice of language. *)
Theorem handler_exit_1_iff (w : World) (args : Args) :
  exitCode (handler w args) = 1 <->
  nameArg args = [] /\
  (langArg args <> None \/
   (text w askName_options = Value [] /\
    select w askLanguage_options <> CancelSymbol)).
Proof.
  unfold exitCode. handler_run w args;
    (split; [intros H; try discriminate H | intros [H1 H2]; try discriminate H1]);
    try reflexivity;
    try (split; [reflexivity|]);
    try (left; discriminate);
    try (right; split; [reflexivity | discriminate]);
    try (destruct H2 as [H2|[H2 H3]];
         try (exfalso; apply H2; reflexivity);
         try discriminate H2;
         try (exfalso; apply H3; reflexivity)).
Qed.

(** X10: with no language given and a name prompt that returns only values
    its validator accepts, a run never fails: it ends with exit code 0. *)
Theorem handler_interactive_never_fails (w : World) (args : Args) :
  langArg args = None ->
  (forall v, text w askName_options = Value v ->
             text_validate askName_options v = None) ->
  exitCode (handler w args) = 0.
Proof.
  unfold exitCode. handler_run w args; intros L V;
    try discriminate L; try reflexivity.
  all: specialize (V _ eq_refl); discriminate V.
Qed.

(** X11: with a language given the user is never asked anything: the run
    shows no banner and no prompt, and is the same whatever the prompts
    would answer, even for an empty name. *)
Theorem handler_with_language_never_prompts
  (w : World) (name : jsstring) (lang : Language) :
  handler w (mkArgs name (Some lang)) =
    handler (cancel_text (cancel_select w)) (mkArgs name (Some lang)) /\
  prompts (fst (handler w (mkArgs name (Some lang)))) = [] /\
  (forall title, ~ In (Intro title) (fst (handler w (mkArgs name (Some lang))))).
Proof.
  split; [reflexivity|].
  unfold handler, logToSystem; simpl. destruct name as [|c name].
  - rewrite createGreeting_empty; simpl.
    split; [reflexivity | intros title [H|[]]; discriminate H].
  - rewrite createGreeting_nonempty by discriminate; simpl.
    match goal with
    | |- context [execa w ?f ?a] => destruct (execa w f a); simpl
    end.
    all: split; [reflexivity | intros title H; simpl in H; intuition discriminate].
Qed.

(** X12: the prompts of a run: none when a language is given; otherwise the
    name prompt only for an empty name argument, and then the language
    prompt, unless the name prompt was cancelled. *)
Theorem handler_prompts_in_order (w : World) (args : Args) :
  prompts (fst (handler w args)) =
    match langArg args with
    | Some _ => []
    | None =>
        if falsy (nameArg args)
        then TextPrompt (utf16 "What is your name?") ::
             match text w askName_options with
             | CancelSymbol => []
             | Value _ => [SelectPrompt (utf16 "Choose a language:")]
             end
        else [SelectPrompt (utf16 "Choose a language:")]
    end.
Proof. handler_run w args; reflexivity. Qed.

(** X13: nothing is logged and no greeting is shown unless the run returns:
    after a cancellation or a failed validation there is no spinner, no
    delay, no call of the logging action and no greeting; a run that returns
    has all of them, once each and in this order: the spinner started, the
    delay of 800 ms, the logging call, the spinner stopped, the greeting. *)
Theorem handler_aborted_shows_nothing (w : World) (args : Args) :
  (snd (handler w args) <> Normal tt ->
   completion_events (fst (handler w args)) = []) /\
  (snd (handler w args) = Normal tt ->
   exists msg : jsstring,
     completion_events (fst (handler w args)) =
       [ SpinnerStart (utf16 "Processing greeting...");
         SetTimeout 800;
         Execa (utf16 "echo") [utf16 "[LOG]: " ++ msg];
         match execa w (utf16 "echo") [utf16 "[LOG]: " ++ msg] with
         | Fulfilled => SpinnerSucceed (pc gray (utf16 "System log updated."))
         | Rejected _ =>
             SpinnerWarn (pc yellow
               (utf16 "Failed to update system log, but continuing."))
         end;
         Outro (pc green (pc bold msg)) ]).
Proof.
  handler_run w args; split; intros H;
    try discriminate H; try reflexivity;
    try (exfalso; apply H; reflexivity).
  all: eexists; simpl; rewrite X; reflexivity.
Qed.

(** X14: a run that returns has greeted the name and language it arrived at
    (the arguments, or the answers of the prompts when no language was
    given), at the current time: it logs that greeting once, stops the
    spinner with a success or a warning according to the outcome of the
    logging, and shows the same greeting last. *)
Theorem handler_success_shape (w : World) (args : Args) :
  snd (handler w args) = Normal tt ->
  exists (name : jsstring) (lang : Language) (msg : jsstring),
    (langArg args = Some lang /\ name = nameArg args \/
     langArg args = None /\ select w askLanguage_options = Value lang /\
     (nameArg args <> [] /\ name = nameArg args \/
      nameArg args = [] /\ text w askName_options = Value name)) /\
    createGreeting name lang (DateOf (now w)) = Normal (ok msg) /\
    completion_events (fst (handler w args)) =
      [ SpinnerStart (utf16 "Processing greeting...");
        SetTimeout 800;
        Execa (utf16 "echo") [utf16 "[LOG]: " ++ msg];
        match execa w (utf16 "echo") [utf16 "[LOG]: " ++ msg] with
        | Fulfilled => SpinnerSucceed (pc gray (utf16 "System log updated."))
        | Rejected _ =>
            SpinnerWarn (pc yellow
              (utf16 "Failed to update system log, but continuing."))
        end;
        Outro (pc green (pc bold msg)) ] /\
    last (fst (handler w args)) (SetTimeout 0) = Outro (pc green (pc bold msg)).
Proof.
  handler_run w args; intros H; try discriminate H.
  all: eexists _, _, _; split;
    [ first [ left; split; reflexivity
            | right; split; [reflexivity|]; split; [reflexivity|];
              first [ left; split; [discriminate | reflexivity]
                    | right; split; reflexivity ] ] |].
  all: split; [apply createGreeting_nonempty; discriminate|].
  all: split; [|reflexivity].
  all: simpl; rewrite X; reflexivity.
Qed.

End Program.

Arguments Value {A} a.
Arguments CancelSymbol {A}.

(* ===================================================================== *)
(** ** Concrete runs *)
(* ===================================================================== *)

Example utf16_units :
  utf16 "¡Hola, " = [161; 72; 111; 108; 97; 44; 32]%N /\
  utf16 "日本語" = [26085; 26412; 35486]%N /\
  Z.of_nat (List.length (utf16 "こんにちは、")) = 6.
Proof. repeat split. Qed.

Example greeting_en_morning :
  createGreeting UTC first_issue (utf16 "Alice") EN (DateOf 0) =
    Normal (ok (utf16 "Good morning, Alice!")).
Proof. vm_compute. reflexivity. Qed.

Example greeting_ja_evening :
  createGreeting UTC first_issue (utf16 "太郎") JA (DateOf 68400000) =
    Normal (ok (utf16 "こんばんは、太郎さん！")).
Proof. vm_compute. reflexivity. Qed.

Example greeting_es_invalid_date :
  createGreeting UTC first_issue (utf16 "Ana") ES InvalidDate =
    Normal (ok (utf16 "¡Buenas noches, Ana!")).
Proof. vm_compute. reflexivity. Qed.

Example greeting_empty_name :
  createGreeting UTC first_issue (utf16 "") EN (DateOf 0) =
    Normal (err (mkError (utf16 "Name cannot be empty"))).
Proof. vm_compute. reflexivity. Qed.

Example decoder_is_case_sensitive :
  LanguageType_from (utf16 "ja") = Normal JA /\
  LanguageType_from (utf16 "JA") =
    Throw (Thrown (mkError (utf16 "Invalid language: JA. Allowed: en, ja, es"))).
Proof. split; vm_compute; reflexivity. Qed.

Example handler_interactive_run :
  handler UTC first_issue plain failing_log_world (mkArgs (utf16 "") None) =
    ([Intro (utf16 " hello-cli ");
      TextPrompt (utf16 "What is your name?");
      SelectPrompt (utf16 "Choose a language:");
      SpinnerStart (utf16 "Processing greeting...");
      SetTimeout 800;
      Execa (utf16 "echo") [utf16 "[LOG]: おはようございます、Aliceさん！"];
      SpinnerWarn (utf16 "Failed to update system log, but continuing.");
      Outro (utf16 "おはようございます、Aliceさん！")],
     Normal tt).
Proof. vm_compute. reflexivity. Qed.

(* ===================================================================== *)
(** ** The theorems at concrete inputs *)
(* ===================================================================== *)

Lemma getTimeOfDay_by_hour_witness :
  getHours UTC (DateOf 46800000) = Num 13 /\
  0 <= 13 <= 23 /\
  getTimeOfDay UTC (DateOf 46800000) = day.
Proof.
  split; [reflexivity|]. split; [lia|].
  apply (proj1 (proj2
    (getTimeOfDay_by_hour UTC (DateOf 46800000) 13 eq_refl ltac:(lia)))).
  lia.
Defined.

Lemma createGreeting_success_witness :
  utf16 "Alice" <> [] /\
  exists msg : jsstring,
    createGreeting UTC first_issue (utf16 "Alice") JA (DateOf 46800000)
      = Normal (ok msg) /\
    msg <> [] /\
    includes msg (utf16 "Alice") = true.
Proof.
  split; [vm_compute; discriminate|].
  apply (createGreeting_success UTC first_issue (utf16 "Alice") JA
           (DateOf 46800000)).
  vm_compute; discriminate.
Defined.

Lemma createGreeting_hour_only_witness :
  getHours UTC (DateOf 33330000) = getHours UTC (DateOf 1793699999000) /\
  createGreeting UTC first_issue (utf16 "Alice") EN (DateOf 33330000) =
  createGreeting UTC first_issue (utf16 "Alice") EN (DateOf 1793699999000).
Proof.
  split; [reflexivity|].
  apply (createGreeting_hour_only UTC first_issue (utf16 "Alice") EN
           (DateOf 33330000) (DateOf 1793699999000)).
  reflexivity.
Defined.

Lemma LanguageType_from_accepts_exactly_witness :
  ~ In (utf16 "fr") accepted_values /\
  exists msg : jsstring,
    LanguageType_from (utf16 "fr") = Throw (Thrown (mkError msg)) /\
    includes msg (utf16 "en, ja, es") = true /\
    forall v, In v accepted_values -> includes msg v = true.
Proof.
  assert (N : ~ In (utf16 "fr") accepted_values)
    by (vm_compute; intuition discriminate).
  split; [exact N|].
  apply (proj2 (proj2 (LanguageType_from_accepts_exactly (utf16 "fr")))).
  exact N.
Defined.

(** C6 as it is stated fails: on the input fr the decoder throws. *)
Lemma LanguageType_from_fr_throws :
  LanguageType_from (utf16 "fr") =
    Throw (Thrown (mkError (utf16 "Invalid language: fr. Allowed: en, ja, es"))) /\
  ~ (forall str : jsstring, ~ throws (LanguageType_from str)).
Proof.
  split; [vm_compute; reflexivity|].
  intros H. apply (H (utf16 "fr")). eexists. vm_compute. reflexivity.
Qed.

Lemma LanguageType_from_throws_on_invalid_witness :
  ~ In (utf16 "fr") accepted_values /\
  LanguageType_from (utf16 "fr") =
    Throw (Thrown (mkError
      (utf16 "Invalid language: " ++ utf16 "fr" ++ utf16 ". Allowed: en, ja, es"))).
Proof.
  assert (N : ~ In (utf16 "fr") accepted_values)
    by (vm_compute; intuition discriminate).
  split; [exact N|].
  apply (proj1 (LanguageType_from_throws_on_invalid (utf16 "fr") N)).
Defined.


Lemma createGreeting_days_later_witness :
  UTC (33330000 + 20000 * msPerDay) = UTC 33330000 /\
  createGreeting UTC first_issue (utf16 "Alice") ES
    (DateOf (33330000 + 20000 * msPerDay)) =
  createGreeting UTC first_issue (utf16 "Alice") ES (DateOf 33330000).
Proof.
  split; [reflexivity|].
  apply (createGreeting_days_later UTC first_issue (utf16 "Alice") ES
           33330000 20000).
  reflexivity.
Defined.

Lemma createGreeting_invalid_date_is_evening_witness :
  getHours UTC (DateOf 68400000) = Num 19 /\
  createGreeting UTC first_issue (utf16 "Ana") ES InvalidDate =
  createGreeting UTC first_issue (utf16 "Ana") ES (DateOf 68400000).
Proof.
  split; [reflexivity|].
  apply (createGreeting_invalid_date_is_evening UTC first_issue (utf16 "Ana")
           ES (DateOf 68400000) 19); [reflexivity | lia].
Defined.

Lemma createGreeting_injective_witness :
  createGreeting UTC first_issue (utf16 "Alice") EN (DateOf 0) =
    Normal (ok (utf16 "Good morning, Alice!")) /\
  createGreeting UTC first_issue (utf16 "Alice") EN (DateOf 39600000) =
    Normal (ok (utf16 "Good morning, Alice!")) /\
  getTimeOfDay UTC (DateOf 0) = getTimeOfDay UTC (DateOf 39600000).
Proof.
  assert (H1 : createGreeting UTC first_issue (utf16 "Alice") EN (DateOf 0) =
               Normal (ok (utf16 "Good morning, Alice!")))
    by (vm_compute; reflexivity).
  assert (H2 : createGreeting UTC first_issue (utf16 "Alice") EN
                 (DateOf 39600000) =
               Normal (ok (utf16 "Good morning, Alice!")))
    by (vm_compute; reflexivity).
  split; [exact H1|]. split; [exact H2|].
  apply (createGreeting_injective UTC first_issue _ _ _ _ _ _ _ H1 H2).
Defined.

Lemma handler_interactive_never_fails_witness :
  langArg (mkArgs (utf16 "") None) = None /\
  (forall v, text working_world askName_options = Value v ->
             text_validate askName_options v = None) /\
  exitCode (handler UTC first_issue plain working_world
              (mkArgs (utf16 "") None)) = 0.
Proof.
  assert (V : forall v, text working_world askName_options = Value v ->
                        text_validate askName_options v = None)
    by (intros v E; injection E as <-; vm_compute; reflexivity).
  split; [reflexivity|]. split; [exact V|].
  apply (handler_interactive_never_fails UTC first_issue plain working_world
           (mkArgs (utf16 "") None) eq_refl V).
Defined.

Lemma handler_success_shape_witness :
  snd (handler UTC first_issue plain working_world
         (mkArgs (utf16 "Bob") (Some ES))) = Normal tt /\
  exists msg : jsstring,
    last (fst (handler UTC first_issue plain working_world
                 (mkArgs (utf16 "Bob") (Some ES)))) (SetTimeout 0) =
      Outro (plain green (plain bold msg)).
Proof.
  assert (N : snd (handler UTC first_issue plain working_world
                     (mkArgs (utf16 "Bob") (Some ES))) = Normal tt)
    by (vm_compute; reflexivity).
  split; [exact N|].
  destruct (handler_success_shape UTC first_issue plain working_world
              (mkArgs (utf16 "Bob") (Some ES)) N)
    as (name & lang & msg & _ & _ & _ & L).
  exists msg. exact L.
Defined.

Lemma handler_aborted_shows_nothing_witness :
  snd (handler UTC first_issue plain (cancel_select working_world)
         (mkArgs (utf16 "Alice") None)) <> Normal tt /\
  completion_events
    (fst (handler UTC first_issue plain (cancel_select working_world)
            (mkArgs (utf16 "Alice") None))) = [].
Proof.
  assert (N : snd (handler UTC first_issue plain (cancel_select working_world)
                     (mkArgs (utf16 "Alice") None)) <> Normal tt)
    by (vm_compute; discriminate).
  split; [exact N|].
  apply (proj1 (handler_aborted_shows_nothing UTC first_issue plain
                  (cancel_select working_world)
                  (mkArgs (utf16 "Alice") None)) N).
Defined.
